(** * RNNDecoderBase: the glue of [txtgen.modules.decoders.rnn_decoder_base]
    and the example configuration [config_model.py].

    The decoder base class wires hyperparameters and a recurrent cell into an
    external dynamic-decode driver.  Python objects are mutated in place and
    exceptions leave earlier mutations visible, so methods are embedded in a
    state-and-exception monad; the external collaborators (cell factory,
    conditional, driver, ambient mode flag) are the fields of a class.  The
    code is embedded as it is written, with the calls that cannot succeed. *)

From Stdlib Require Import ZArith.
From stdpp Require Import base option list strings gmap fin_maps.

Local Open Scope Z_scope.
Local Open Scope string_scope.

(** ** Python values found in hyperparameter mappings *)

#[warnings="-register-all"]
Inductive hval : Type :=
  | HNone
  | HInt (z : Z)
  | HStr (s : string)
  | HDict (m : gmap string hval).

(** [v[k]] on a value: only mappings have items. *)
Definition getitem (v : hval) (k : string) : option hval :=
  match v with HDict m => m !! k | _ => None end.

Fixpoint getpath (v : hval) (ks : list string) : option hval :=
  match ks with
  | [] => Some v
  | k :: ks' => match getitem v k with Some v' => getpath v' ks' | None => None end
  end.

(** ** Exceptions and the state-and-exception monad *)

Inductive exn : Type :=
  | NotImplementedError
  | AttributeError (attr : string)
  | TypeError (msg : string)
  | ExternalError (msg : string).

Inductive result (A : Type) : Type :=
  | Ok (a : A)
  | Raise (e : exn).
Arguments Ok {A} a.
Arguments Raise {A} e.

(** A computation over a mutable state [S]: the state reached is returned
    also when an exception is raised. *)
Definition M (S A : Type) : Type := S -> result A * S.

Definition ret {S A} (a : A) : M S A := fun s => (Ok a, s).
Definition raise {S A} (e : exn) : M S A := fun s => (Raise e, s).
Definition bind {S A B} (m : M S A) (k : A -> M S B) : M S B :=
  fun s => match m s with
           | (Ok a, s') => k a s'
           | (Raise e, s') => (Raise e, s')
           end.
Definition get {S} : M S S := fun s => (Ok s, s).
Definition modify {S} (f : S -> S) : M S unit := fun s => (Ok tt, f s).

Declare Scope py_scope.
Delimit Scope py_scope with py.
Notation "x <- c1 ;; c2" := (bind c1 (fun x => c2))
  (at level 100, c1 at next level, right associativity) : py_scope.
Notation "c1 ;;; c2" := (bind c1 (fun _ => c2))
  (at level 100, right associativity) : py_scope.

(** ** External collaborators

    Nothing below is implemented by the repository: TensorFlow values, the
    cell factory of [txtgen.core.layers], the ambient mode flag of
    [txtgen.context], [tf.cond] and [dynamic_decode].  [Globals] is the
    process-wide state they may read and write (graph, collections, mode). *)

Class ExtTypes : Type := {
  Cell : Type;
  Helper : Type;
  Tensor : Type;
  TFVariable : Type;
  Globals : Type
}.

(** [ModuleBase] part of an instance: name, resolved hyperparameters and the
    list kept by the module-parameter tracker. *)
Record ModuleBase `{ExtTypes} : Type := {
  mb_name : string;
  mb_hparams : hval;
  mb_trainable_variables : list TFVariable
}.

(** Attributes of an [RNNDecoderBase] instance; [None] is Python's [None]. *)
Record RNNDecoderBase `{ExtTypes} : Type := {
  base : ModuleBase;
  _helper : option Helper;
  _initial_state : option Tensor;
  _cell : Cell
}.

(** [self._hparams], also reached through the [hparams] property. *)
Definition _hparams `{ExtTypes} (self : RNNDecoderBase) : hval := mb_hparams (base self).

(** The operations of the collaborators.  Those that the specification says
    may fail, or that build graph state, run on the globals and may raise:
    - [default_rnn_cell_hparams ()] and [get_rnn_cell (hparams)] of
      [txtgen.core.layers];
    - [context.is_train ()], the ambient training/inference flag;
    - [tf.cond (pred, true_fn, false_fn)];
    - [dynamic_decode (decoder, maximum_iterations)], which returns the triple
      (outputs, final state, sequence lengths);
    - [cell.trainable_variables ()], the call of line 92, which raises when
      the cell has no such method;
    - the trainable variables the graph holds under a module's name;
    - [helper.batch_size].
    A collaborator is handed values and acts on the globals; the attributes
    of an instance are written by the methods of its class only. *)
Class Externals `{ExtTypes} : Type := {
  default_rnn_cell_hparams : M Globals hval;
  get_rnn_cell : hval -> M Globals Cell;
  is_train : Globals -> bool;
  tf_cond : bool -> hval -> hval -> M Globals hval;
  dynamic_decode : RNNDecoderBase -> hval -> M Globals (Tensor * Tensor * Tensor);
  cell_trainable_variables : Cell -> M Globals (list TFVariable);
  scope_trainable_variables : string -> Globals -> list TFVariable;
  helper_batch_size : Helper -> hval
}.

(** Calls made to the collaborators of the decoder, with their outcome. *)
Inductive Event `{ExtTypes} : Type :=
  | EvGetRnnCell (rnn_cell : hval) (r : result Cell)
  | EvCond (pred : bool) (true_fn false_fn : hval) (r : result hval)
  | EvDynamicDecode (decoder : RNNDecoderBase) (maximum_iterations : hval)
      (r : result (Tensor * Tensor * Tensor)).

(** The world outside an instance: the collaborators' state and the log of
    the calls made so far, oldest first. *)
Record World `{ExtTypes} : Type := {
  globals : Globals;
  calls : list Event
}.

(** What a method runs on: the instance it mutates and the world. *)
Record Frame `{ExtTypes} : Type := {
  self : RNNDecoderBase;
  world : World
}.

Section Program.
Context `{E : Externals}.
Local Open Scope py_scope.

(** *** Plumbing between the three state spaces *)

(** Runs a collaborator on the globals and logs the call with its outcome. *)
Definition ext {A} (ev : result A -> Event) (f : M Globals A) : M World A :=
  fun w => let '(r, g) := f (globals w) in
           (r, {| globals := g; calls := calls w ++ [ev r] |}).

(** Runs a collaborator that the log does not track. *)
Definition quiet {A} (f : M Globals A) : M World A :=
  fun w => let '(r, g) := f (globals w) in
           (r, {| globals := g; calls := calls w |}).

Definition in_world {A} (m : M World A) : M Frame A :=
  fun fr => let '(r, w) := m (world fr) in (r, {| self := self fr; world := w |}).

Definition get_self : M Frame RNNDecoderBase := fun fr => (Ok (self fr), fr).
Definition set_self (f : RNNDecoderBase -> RNNDecoderBase) : M Frame unit :=
  modify (fun fr => {| self := f (self fr); world := world fr |}).

(** [obj.attr] on a hyperparameter object. *)
Definition getattr {S} (obj : hval) (attr : string) : M S hval :=
  match getitem obj attr with
  | Some v => ret v
  | None => raise (AttributeError attr)
  end.

(** *** [RNNDecoderBase.default_hparams] *)

Definition default_hparams : M World hval :=
  rnn_cell <- quiet default_rnn_cell_hparams ;;
  ret (HDict (<["rnn_cell" := rnn_cell]> (<["max_decoding_length" := HInt 64]> ∅))).

(** *** [ModuleBase] *)

(** Modelled from the spec: [ModuleBase.__init__ (self, name, hparams)] of
    [txtgen.modules.module_base], which lies outside the two source files
    covered here, initialises the instance it is called on.  The only call
    in the sources, line 32, is made on the class with two arguments: the
    first takes the place of the instance, the second that of the name.  A
    hyperparameter value or a string is not a [ModuleBase] instance, so the
    call initialises nothing and raises. *)
Definition ModuleBase__init__ (self name : hval) : M World ModuleBase :=
  raise (TypeError "ModuleBase.__init__ called without a ModuleBase instance").

(** Modelled from the spec: [ModuleBase._add_trainable_variable], the
    registration hook of the module-parameter tracker, which lies outside
    the two source files covered here: the variables handed over join the
    tracked ones. *)
Definition _add_trainable_variable (variable : list TFVariable) : M Frame unit :=
  set_self (fun d =>
    {| base := {| mb_name := mb_name (base d);
                  mb_hparams := mb_hparams (base d);
                  mb_trainable_variables := mb_trainable_variables (base d) ++ variable |};
       _helper := _helper d;
       _initial_state := _initial_state d;
       _cell := _cell d |}).

(** Modelled from the spec: [ModuleBase._add_internal_trainable_variables],
    outside the two source files covered here: registers the component's "own
    trainable parameters", those created under the module's name. *)
Definition _add_internal_trainable_variables : M Frame unit :=
  fr <- get ;;
  _add_trainable_variable
    (scope_trainable_variables (mb_name (base (self fr))) (globals (world fr))).

(** *** [RNNDecoderBase.__init__]

    Line 32 is [ModuleBase.__init__(name, hparams)]: the instance is not
    passed, [name] stands in its place and [hparams] in the place of the
    name.  The lines after it are embedded as written, on the base part the
    call would have initialised; [self.hparams] is the property over
    [self._hparams]. *)

Definition __init__ (cell : option Cell) (hparams : option (gmap string hval))
    (name : string) : M World RNNDecoderBase :=
  b <- ModuleBase__init__ (HStr name) (from_option HDict HNone hparams) ;;
  let helper : option Helper := None in
  let initial_state : option Tensor := None in
  match cell with
  | Some c =>
      ret {| base := b; _helper := helper; _initial_state := initial_state; _cell := c |}
  | None =>
      rnn_cell <- getattr (mb_hparams b) "rnn_cell" ;;
      c <- ext (EvGetRnnCell rnn_cell) (get_rnn_cell rnn_cell) ;;
      ret {| base := b; _helper := helper; _initial_state := initial_state; _cell := c |}
  end.

(** *** [RNNDecoderBase._build]

    The arguments of [tf.cond] are evaluated left to right: the mode flag,
    [None], then [self._hparams.max_decoding_length]; the source hands over
    the two values themselves, and what the conditional makes of them is
    the environment's.  The driver is called with [decoder=self], the
    instance as it is at that moment.  On line 92 the argument
    [self._cell.trainable_variables()] is evaluated before the hook is
    called, after the variables of the module's own scope were registered. *)

Definition set_helper (h : option Helper) : M Frame unit :=
  set_self (fun d => {| base := base d; _helper := h;
                        _initial_state := _initial_state d; _cell := _cell d |}).
Definition set_initial_state (s : option Tensor) : M Frame unit :=
  set_self (fun d => {| base := base d; _helper := _helper d;
                        _initial_state := s; _cell := _cell d |}).

Definition _build (helper : Helper) (initial_state : Tensor)
  : M Frame (Tensor * Tensor * Tensor) :=
  set_helper (Some helper) ;;;
  set_initial_state (Some initial_state) ;;;
  fr <- get ;;
  let pred := is_train (globals (world fr)) in
  configured <- getattr (_hparams (self fr)) "max_decoding_length" ;;
  max_decoding_length <-
    in_world (ext (EvCond pred HNone configured) (tf_cond pred HNone configured)) ;;
  this <- get_self ;;
  out <- in_world (ext (EvDynamicDecode this max_decoding_length)
                       (dynamic_decode this max_decoding_length)) ;;
  let '(outputs, final_state, sequence_lengths) := out in
  _add_internal_trainable_variables ;;;
  this <- get_self ;;
  variable <- in_world (quiet (cell_trainable_variables (_cell this))) ;;
  _add_trainable_variable variable ;;;
  ret (outputs, final_state, sequence_lengths).

(** *** The [batch_size] property *)

Definition batch_size : M Frame hval :=
  this <- get_self ;;
  match _helper this with
  | Some h => ret (helper_batch_size h)
  | None => raise (AttributeError "batch_size")
  end.

(** *** The callbacks of the dynamic-decode contract *)

Definition initialize (name : option string) : M Frame (Tensor * Tensor * Tensor) :=
  raise NotImplementedError.

Definition step (time inputs state : Tensor) (name : option string)
  : M Frame (Tensor * Tensor * Tensor * Tensor) :=
  raise NotImplementedError.

Definition finalize (outputs final_state sequence_lengths : Tensor)
  : M Frame (Tensor * Tensor) :=
  raise NotImplementedError.

(** *** Method resolution

    A class is the table of its three callbacks; a subclass takes from its
    parent every callback it does not override. *)

Record DecoderClass : Type := {
  cls_initialize : option string -> M Frame (Tensor * Tensor * Tensor);
  cls_step : Tensor -> Tensor -> Tensor -> option string
             -> M Frame (Tensor * Tensor * Tensor * Tensor);
  cls_finalize : Tensor -> Tensor -> Tensor -> M Frame (Tensor * Tensor)
}.

Definition RNNDecoderBase_class : DecoderClass :=
  {| cls_initialize := initialize; cls_step := step; cls_finalize := finalize |}.

Record Overrides : Type := {
  ov_initialize : option (option string -> M Frame (Tensor * Tensor * Tensor));
  ov_step : option (Tensor -> Tensor -> Tensor -> option string
                    -> M Frame (Tensor * Tensor * Tensor * Tensor));
  ov_finalize : option (Tensor -> Tensor -> Tensor -> M Frame (Tensor * Tensor))
}.

Definition subclass (parent : DecoderClass) (ov : Overrides) : DecoderClass :=
  {| cls_initialize := default (cls_initialize parent) (ov_initialize ov);
     cls_step := default (cls_step parent) (ov_step ov);
     cls_finalize := default (cls_finalize parent) (ov_finalize ov) |}.

(** The defaults of the class when the cell configuration defaults to
    [rnn_cell]. *)
Definition defaults_with (rnn_cell : hval) : hval :=
  HDict (<["rnn_cell" := rnn_cell]> (<["max_decoding_length" := HInt 64]> ∅)).

(** *** Reading the log *)

Definition factory_args (evs : list Event) : list hval :=
  omap (fun ev => match ev with EvGetRnnCell hp _ => Some hp | _ => None end) evs.

Definition driver_bounds (evs : list Event) : list hval :=
  omap (fun ev => match ev with EvDynamicDecode _ m _ => Some m | _ => None end) evs.

End Program.

(** The calls logged between two worlds of one run. *)
Definition new_calls `{ExtTypes} (before after : World) : list Event :=
  drop (length (calls before)) (calls after).

(** A collaborator that always returns the same value and touches nothing. *)
Definition pure_call {S A} (f : M S A) : Prop :=
  exists a, forall s, f s = (Ok a, s).

(** The contract of [tf.cond]: the two branches must be callables, and a
    [TypeError] is raised otherwise.  No hyperparameter value is callable,
    so a conditional under that contract raises on whatever values it is
    handed. *)
Definition cond_rejects_values `{Externals} : Prop :=
  forall (pred : bool) (a b : hval) (g : Globals),
    exists msg : string, fst (tf_cond pred a b g) = Raise (TypeError msg).


(** The instance as [_build] leaves it before it calls anything. *)
Definition with_arguments `{ExtTypes} (d : RNNDecoderBase) (helper : Helper)
    (initial_state : Tensor) : RNNDecoderBase :=
  {| base := base d; _helper := Some helper;
     _initial_state := Some initial_state; _cell := _cell d |}.

(** The instance with more variables in the tracker and nothing else changed. *)
Definition with_registered `{ExtTypes} (d : RNNDecoderBase) (vars : list TFVariable)
  : RNNDecoderBase :=
  {| base := {| mb_name := mb_name (base d);
                mb_hparams := mb_hparams (base d);
                mb_trainable_variables := mb_trainable_variables (base d) ++ vars |};
     _helper := _helper d; _initial_state := _initial_state d; _cell := _cell d |}.

(** ** The example configuration, [config_model.py] *)

Module config_model.

Definition num_units : Z := 1000.
Definition embedding_dim : Z := 500.

Definition embedder : gmap string hval :=
  {[ "dim" := HInt embedding_dim ]}.

Definition encoder : gmap string hval :=
  {[ "rnn_cell_fw" := HDict {[ "kwargs" := HDict {[ "num_units" := HInt num_units ]} ]} ]}.

Definition decoder : gmap string hval :=
  <[ "rnn_cell" := HDict {[ "kwargs" := HDict {[ "num_units" := HInt num_units ]} ]} ]>
  (<[ "attention" :=
        HDict (<[ "kwargs" := HDict {[ "num_units" := HInt num_units ]} ]>
               (<[ "attention_layer_size" := HInt num_units ]> ∅)) ]> ∅).

End config_model.

(** ** Reference environments

    Stand-ins for the collaborators, used to run the decoder on concrete
    inputs: [plain] lets every call return, the others make one of them
    raise. *)

Module Reference.

(** A constructed cell: the mapping it was built from and its variables. *)
Record cell : Type := {
  cell_hparams : hval;
  cell_variables : list string
}.

Definition types : ExtTypes :=
  {| Cell := cell; Helper := Z; Tensor := Z; TFVariable := string; Globals := bool |}.

(** Modelled from the spec: the cell factory [get_rnn_cell] of
    [txtgen.core.layers], outside the two source files covered here: "given an
    rnn_cell hyperparameter mapping, returns a constructed recurrent cell
    object".  The cell is configured by the mapping it is given. *)
Definition ref_get_rnn_cell (rnn_cell : hval) : M bool cell :=
  ret {| cell_hparams := rnn_cell; cell_variables := ["cell/kernel"; "cell/bias"] |}.

(** [default_rnn_cell] stands for the defaults of
    [txtgen.core.layers.default_rnn_cell_hparams]; the globals are the mode
    flag, [true] when training. *)
Definition env (default_rnn_cell : hval) : @Externals types :=
  {| default_rnn_cell_hparams := (ret default_rnn_cell : M (@Globals types) hval);
     get_rnn_cell := ref_get_rnn_cell;
     is_train := fun g : bool => g;
     tf_cond := fun pred true_fn false_fn => ret (if pred then true_fn else false_fn);
     dynamic_decode := fun decoder maximum_iterations =>
       match @_helper types decoder, @_initial_state types decoder with
       | Some batch, Some state => ret (100, state, batch)
       | _, _ => raise (ExternalError "decoder not set up")
       end;
     cell_trainable_variables := fun c => ret (cell_variables c);
     scope_trainable_variables := fun name _ => [name +:+ "/output_layer"];
     helper_batch_size := HInt |}.

(** The environment whose cell configuration defaults to the empty mapping. *)
Definition plain : @Externals types := env (HDict ∅).

(** A world in inference mode with nothing logged, and one in training. *)
Definition inference : @World types := @Build_World types false [].
Definition training : @World types := @Build_World types true [].

(** A decoder instance that holds the defaults of the class over an empty
    cell configuration and no helper yet, and a frame to decode in. *)
Definition fresh : @RNNDecoderBase types :=
  @Build_RNNDecoderBase types
    (@Build_ModuleBase types "rnn_decoder"
       (HDict (<["rnn_cell" := HDict ∅]> (<["max_decoding_length" := HInt 64]> ∅)))
       [])
    None None
    {| cell_hparams := HDict ∅; cell_variables := ["cell/kernel"; "cell/bias"] |}.

Definition frame (w : @World types) : @Frame types := @Build_Frame types fresh w.

(** An environment in which things go wrong: the conditional raises while
    training, and the driver raises whenever it is reached. *)
Definition faulty : @Externals types :=
  {| default_rnn_cell_hparams := (ret (HDict ∅) : M (@Globals types) hval);
     get_rnn_cell := ref_get_rnn_cell;
     is_train := fun g : bool => g;
     tf_cond := fun pred true_fn false_fn =>
       if pred then raise (ExternalError "cond") else ret false_fn;
     dynamic_decode := fun decoder maximum_iterations =>
       raise (ExternalError "driver");
     cell_trainable_variables := fun c => ret (cell_variables c);
     scope_trainable_variables := fun name _ => [name +:+ "/output_layer"];
     helper_batch_size := HInt |}.

(** An environment whose conditional keeps the contract of [tf.cond]: the
    values it is handed are not callables and it raises. *)
Definition strict_cond : @Externals types :=
  {| default_rnn_cell_hparams := (ret (HDict ∅) : M (@Globals types) hval);
     get_rnn_cell := ref_get_rnn_cell;
     is_train := fun g : bool => g;
     tf_cond := fun pred true_fn false_fn =>
       raise (TypeError "true_fn must be callable.");
     dynamic_decode := fun decoder maximum_iterations =>
       match @_helper types decoder, @_initial_state types decoder with
       | Some batch, Some state => ret (100, state, batch)
       | _, _ => raise (ExternalError "decoder not set up")
       end;
     cell_trainable_variables := fun c => ret (cell_variables c);
     scope_trainable_variables := fun name _ => [name +:+ "/output_layer"];
     helper_batch_size := HInt |}.


(** A decoder whose hyperparameter object binds nothing. *)
Definition bare : @RNNDecoderBase types :=
  @Build_RNNDecoderBase types
    (@Build_ModuleBase types "rnn_decoder" (HDict ∅) [])
    None None
    {| cell_hparams := HDict ∅; cell_variables := [] |}.

End Reference.

(** * Properties *)

Section Properties.
Context `{E : Externals}.
Local Open Scope list_scope.
Local Open Scope py_scope.

(** ** Shared lemmas *)

Lemma world_eta (w : World) : {| globals := globals w; calls := calls w |} = w.
Proof. by destruct w. Qed.

Lemma new_calls_app (w : World) (g : Globals) (evs : list Event) :
  new_calls w {| globals := g; calls := calls w ++ evs |} = evs.
Proof. unfold new_calls; simpl. by rewrite drop_app_length. Qed.

Lemma default_hparams_run (w : World) :
  default_hparams w =
    match default_rnn_cell_hparams (globals w) with
    | (Ok rc, g) => (Ok (defaults_with rc), {| globals := g; calls := calls w |})
    | (Raise e, g) => (Raise e, {| globals := g; calls := calls w |})
    end.
Proof.
  unfold default_hparams, defaults_with, bind, quiet, ret.
  by destruct (default_rnn_cell_hparams (globals w)) as [[rc|e] g].
Qed.

(** ** The callbacks *)

(** C3: each of [initialize], [step] and [finalize] of the base class
    raises [NotImplementedError], whatever its arguments and the state, and
    leaves the state as it was; a subclass that overrides the other
    callbacks, but not a given one, still gets the error from that one. *)
Theorem callbacks_not_implemented :
  (forall name fr, initialize name fr = (Raise NotImplementedError, fr))
  /\ (forall time inputs state name fr,
        step time inputs state name fr = (Raise NotImplementedError, fr))
  /\ (forall outputs final_state sequence_lengths fr,
        finalize outputs final_state sequence_lengths fr
        = (Raise NotImplementedError, fr))
  /\ (forall s f name fr,
        cls_initialize (subclass RNNDecoderBase_class
          {| ov_initialize := None; ov_step := s; ov_finalize := f |}) name fr
        = (Raise NotImplementedError, fr))
  /\ (forall i f time inputs state name fr,
        cls_step (subclass RNNDecoderBase_class
          {| ov_initialize := i; ov_step := None; ov_finalize := f |})
          time inputs state name fr
        = (Raise NotImplementedError, fr))
  /\ (forall i s outputs final_state sequence_lengths fr,
        cls_finalize (subclass RNNDecoderBase_class
          {| ov_initialize := i; ov_step := s; ov_finalize := None |})
          outputs final_state sequence_lengths fr
        = (Raise NotImplementedError, fr)).
Proof. repeat split. Qed.

(** ** Default hyperparameters *)

(** C4: when the collaborator that defaults the cell configuration returns
    [rc], [default_hparams] returns a mapping whose keys are exactly
    [rnn_cell] and [max_decoding_length], with [max_decoding_length] bound
    to 64 and [rnn_cell] bound to [rc]. *)
Theorem default_hparams_keys (w : World) (rc : hval) (g : Globals) :
  default_rnn_cell_hparams (globals w) = (Ok rc, g) ->
  exists m : gmap string hval,
    fst (default_hparams w) = Ok (HDict m)
    /\ dom m = ({[ "rnn_cell"; "max_decoding_length" ]} : gset string)
    /\ m !! "max_decoding_length" = Some (HInt 64)
    /\ m !! "rnn_cell" = Some rc.
Proof.
  intros Hrc. rewrite default_hparams_run, Hrc; simpl.
  eexists; split; [reflexivity|].
  split; [|split].
  - rewrite !dom_insert_L, dom_empty_L. set_solver.
  - rewrite lookup_insert_ne by done. by rewrite lookup_insert_eq.
  - by rewrite lookup_insert_eq.
Qed.

(** C5: when the collaborator that defaults the cell configuration is pure,
    [default_hparams] returns one and the same mapping in every world,
    leaves the world (globals and log) as it found it, and calling it again
    after itself is the same as calling it once. *)
Theorem default_hparams_pure :
  pure_call default_rnn_cell_hparams ->
  exists d : hval,
    (forall w : World, default_hparams w = (Ok d, w))
    /\ (forall w1 w2 : World, fst (default_hparams w1) = fst (default_hparams w2))
    /\ (forall w : World, (default_hparams ;;; default_hparams) w = default_hparams w).
Proof.
  intros [rc Hrc].
  assert (Hrun : forall w : World, default_hparams w = (Ok (defaults_with rc), w)).
  { intros w. rewrite default_hparams_run, Hrc. by rewrite world_eta. }
  eexists; split; [exact Hrun|]. split.
  - intros w1 w2. by rewrite !Hrun.
  - intros w. unfold bind. by rewrite !Hrun.
Qed.

Lemma new_calls_eq (w w' : World) (evs : list Event) :
  calls w' = calls w ++ evs -> new_calls w w' = evs.
Proof. unfold new_calls. intros ->. by rewrite drop_app_length. Qed.

(** ** Construction *)

(** C2, as the code has it: whatever cell, hyperparameters and name it is
    given, the constructor raises at its first line, where the base class is
    initialised without the instance; it returns no decoder, stores no cell,
    leaves the world as it was and never calls the cell factory. *)
Theorem init_raises (cell : option Cell) (hp : option (gmap string hval))
    (name : string) (w : World) :
  (exists e : exn, __init__ cell hp name w = (Raise e, w))
  /\ factory_args (new_calls w (snd (__init__ cell hp name w))) = [].
Proof.
  unfold __init__, bind, ModuleBase__init__, raise; cbn [fst snd].
  split; [by eexists|].
  rewrite (new_calls_eq w w []) by (by rewrite app_nil_r). done.
Qed.

(** ** Decoding *)

(** The ways a run of [_build] can go, with the frame it leaves. *)
Lemma _build_run (helper : Helper) (initial_state : Tensor) (fr : Frame) :
  _build helper initial_state fr =
    let d0 := with_arguments (self fr) helper initial_state in
    let w := world fr in
    let pred := is_train (globals w) in
    match getitem (_hparams (self fr)) "max_decoding_length" with
    | None =>
        (Raise (AttributeError "max_decoding_length"), {| self := d0; world := w |})
    | Some v =>
        let '(rc, g1) := tf_cond pred HNone v (globals w) in
        let log1 := calls w ++ [EvCond pred HNone v rc] in
        match rc with
        | Raise e => (Raise e, {| self := d0; world := {| globals := g1; calls := log1 |} |})
        | Ok m =>
            let '(rd, g2) := dynamic_decode d0 m g1 in
            let log2 := log1 ++ [EvDynamicDecode d0 m rd] in
            match rd with
            | Raise e =>
                (Raise e, {| self := d0; world := {| globals := g2; calls := log2 |} |})
            | Ok out =>
                let d1 := with_registered d0
                            (scope_trainable_variables (mb_name (base d0)) g2) in
                let '(rv, g3) := cell_trainable_variables (_cell d0) g2 in
                match rv with
                | Raise e =>
                    (Raise e, {| self := d1; world := {| globals := g3; calls := log2 |} |})
                | Ok variable =>
                    (Ok out,
                     {| self := with_registered d1 variable;
                        world := {| globals := g3; calls := log2 |} |})
                end
            end
        end
    end.
Proof.
  destruct fr as [d w].
  cbv beta iota zeta delta
    [_build bind set_helper set_initial_state set_self modify get get_self
     getattr in_world ext quiet _add_internal_trainable_variables
     _add_trainable_variable ret raise _hparams with_arguments with_registered
     self world globals calls base _cell _helper _initial_state mb_name
     mb_hparams mb_trainable_variables fst snd].
  destruct (getitem _ "max_decoding_length") as [v|]; [|done].
  destruct (tf_cond _ HNone v _) as [[m|e] g1]; [|done].
  destruct (dynamic_decode _ m g1) as [[[[o f] l]|e] g2]; [|done].
  by destruct (cell_trainable_variables _ g2) as [[variable|e] g3].
Qed.

(** Every run of [_build] is one of five: the bound is not configured, the
    conditional raises, the driver raises, the call on the cell raises after
    the driver returned, or everything returns. *)
Lemma _build_outcomes (helper : Helper) (initial_state : Tensor) (fr : Frame) :
  let d0 := with_arguments (self fr) helper initial_state in
  let pred := is_train (globals (world fr)) in
  let r := fst (_build helper initial_state fr) in
  let fr' := snd (_build helper initial_state fr) in
  let evs := new_calls (world fr) (world fr') in
  calls (world fr') = calls (world fr) ++ evs
  /\ ((getitem (_hparams (self fr)) "max_decoding_length" = None
       /\ evs = [] /\ r = Raise (AttributeError "max_decoding_length")
       /\ fr' = {| self := d0; world := world fr |})
      \/ (exists v e,
            getitem (_hparams (self fr)) "max_decoding_length" = Some v
            /\ evs = [EvCond pred HNone v (Raise e)]
            /\ r = Raise e /\ self fr' = d0)
      \/ (exists v m e,
            getitem (_hparams (self fr)) "max_decoding_length" = Some v
            /\ evs = [EvCond pred HNone v (Ok m); EvDynamicDecode d0 m (Raise e)]
            /\ r = Raise e /\ self fr' = d0)
      \/ (exists v m out g2 e,
            getitem (_hparams (self fr)) "max_decoding_length" = Some v
            /\ evs = [EvCond pred HNone v (Ok m); EvDynamicDecode d0 m (Ok out)]
            /\ fst (cell_trainable_variables (_cell d0) g2) = Raise e
            /\ r = Raise e
            /\ self fr' = with_registered d0
                  (scope_trainable_variables (mb_name (base d0)) g2))
      \/ (exists v m out g2 variable,
            getitem (_hparams (self fr)) "max_decoding_length" = Some v
            /\ evs = [EvCond pred HNone v (Ok m); EvDynamicDecode d0 m (Ok out)]
            /\ fst (cell_trainable_variables (_cell d0) g2) = Ok variable
            /\ r = Ok out
            /\ self fr' = with_registered
                  (with_registered d0
                     (scope_trainable_variables (mb_name (base d0)) g2))
                  variable)).
Proof.
  cbv zeta. rewrite _build_run. cbv zeta.
  destruct (getitem _ "max_decoding_length") as [v|]; cbn [fst snd self world].
  2:{ rewrite (new_calls_eq _ _ []) by (by rewrite app_nil_r).
      rewrite app_nil_r. split; [done|]. by left. }
  destruct (tf_cond _ HNone v _) as [[m|e] g1]; cbn [fst snd self world].
  2:{ rewrite new_calls_app. split; [done|]. right; left. by exists v, e. }
  destruct (dynamic_decode _ m g1) as [[out|e] g2].
  2:{ cbn [fst snd self world]. rewrite <- app_assoc, new_calls_app.
      split; [done|]. right; right; left. by exists v, m, e. }
  destruct (cell_trainable_variables _ g2) as [[variable|e] g3] eqn:Hcell;
    cbn [fst snd self world]; rewrite <- app_assoc, new_calls_app;
    (split; [done|]); right; right; right.
  - right. exists v, m, out, g2, variable. by rewrite Hcell.
  - left. exists v, m, out, g2, e. by rewrite Hcell.
Qed.

(** Whatever the outcome, the instance holds the two arguments at the end. *)
Lemma _build_stores (helper : Helper) (initial_state : Tensor) (fr : Frame) :
  _helper (self (snd (_build helper initial_state fr))) = Some helper
  /\ _initial_state (self (snd (_build helper initial_state fr))) = Some initial_state.
Proof.
  destruct (_build_outcomes helper initial_state fr) as [_ Hcase]; cbv zeta in Hcase.
  destruct Hcase as [(_ & _ & _ & ->) | [(v & e & _ & _ & _ & ->)
    | [(v & m & e & _ & _ & _ & ->) | [(v & m & out & g2 & e & _ & _ & _ & _ & ->)
    | (v & m & out & g2 & variable & _ & _ & _ & _ & ->)]]]]; done.
Qed.

(** Every call of the driver is made on the instance holding the two
    arguments, with the tracker as it was before the run. *)
Lemma _build_driver_instance (helper : Helper) (initial_state : Tensor) (fr : Frame)
    (d : RNNDecoderBase) (m : hval) (rd : result (Tensor * Tensor * Tensor)) :
  EvDynamicDecode d m rd
    ∈ new_calls (world fr) (world (snd (_build helper initial_state fr))) ->
  d = with_arguments (self fr) helper initial_state.
Proof.
  intros Hin.
  destruct (_build_outcomes helper initial_state fr) as [_ Hcase]; cbv zeta in Hcase.
  destruct Hcase as [(_ & Hevs & _) | [(v & e & _ & Hevs & _)
    | [(v & m' & e & _ & Hevs & _) | [(v & m' & out & g2 & e & _ & Hevs & _)
    | (v & m' & out & g2 & variable & _ & Hevs & _)]]]]; rewrite Hevs in Hin.
  - by apply not_elem_of_nil in Hin.
  - apply list_elem_of_singleton in Hin. discriminate.
  - apply elem_of_cons in Hin as [Hin|Hin]; [discriminate|].
    apply list_elem_of_singleton in Hin. by inversion Hin.
  - apply elem_of_cons in Hin as [Hin|Hin]; [discriminate|].
    apply list_elem_of_singleton in Hin. by inversion Hin.
  - apply elem_of_cons in Hin as [Hin|Hin]; [discriminate|].
    apply list_elem_of_singleton in Hin. by inversion Hin.
Qed.

(** C1, as the code has it: under the contract of [tf.cond], which takes
    callables, a run of [_build] on a decoder whose hyperparameters bind
    [max_decoding_length] raises [TypeError] at the conditional, in
    inference mode and in training mode alike, and the driver is never
    called, so no bound reaches it. *)
Theorem build_cond_rejects_values (helper : Helper) (initial_state : Tensor)
    (fr : Frame) (v : hval) :
  cond_rejects_values ->
  getitem (_hparams (self fr)) "max_decoding_length" = Some v ->
  (exists msg : string, fst (_build helper initial_state fr) = Raise (TypeError msg))
  /\ driver_bounds (new_calls (world fr) (world (snd (_build helper initial_state fr))))
     = [].
Proof.
  intros Hcond Hv. rewrite _build_run. cbv zeta. rewrite Hv.
  destruct (Hcond (is_train (globals (world fr))) HNone v (globals (world fr)))
    as [msg Hmsg].
  destruct (tf_cond _ HNone v _) as [rc g1]. simpl in Hmsg. subst rc.
  cbn [fst snd self world]. rewrite new_calls_app. split; [by exists msg | done].
Qed.



(** C8, as the code has it: a run of [_build] stores its two arguments on
    the instance before the driver is called, over whatever was stored
    before, and does not change them again; they are still stored when the
    run has ended, whether it returned or raised, and stay so until a later
    run stores its own arguments over them. *)
Theorem build_keeps_arguments (helper : Helper) (initial_state : Tensor)
    (fr : Frame) :
  let fr' := snd (_build helper initial_state fr) in
  _helper (self fr') = Some helper
  /\ _initial_state (self fr') = Some initial_state
  /\ (forall d m rd,
        EvDynamicDecode d m rd ∈ new_calls (world fr) (world fr') ->
        _helper d = Some helper /\ _initial_state d = Some initial_state)
  /\ (forall (helper2 : Helper) (initial_state2 : Tensor),
        let fr'' := snd (_build helper2 initial_state2 fr') in
        _helper (self fr'') = Some helper2
        /\ _initial_state (self fr'') = Some initial_state2).
Proof.
  cbv zeta. destruct (_build_stores helper initial_state fr) as [Hh Hs].
  split; [done|]. split; [done|]. split; [|by intros; apply _build_stores].
  intros d m rd Hin.
  by rewrite (_build_driver_instance helper initial_state fr d m rd Hin).
Qed.

(** ** The batch size *)

(** C10: on a decoder instance whose helper is still [None], as line 33
    sets it and as it stays until a run of [_build], reading [batch_size]
    raises (the attribute is looked up on [None]) and returns no value, in
    every world, and leaves the frame as it was. *)
Theorem batch_size_before_build (d : RNNDecoderBase) (w : World) :
  _helper d = None ->
  batch_size {| self := d; world := w |}
  = (Raise (AttributeError "batch_size"), {| self := d; world := w |}).
Proof.
  intros Hh. unfold batch_size, bind, get_self; cbn [self]. by rewrite Hh.
Qed.

End Properties.

(** * The example configuration *)

Section ExampleConfiguration.
Context `{E : Externals}.
Local Open Scope list_scope.

(** C9, as the code has it: the example configuration sets
    [num_units = 1000] and [embedding_dim = 500], its [decoder] mapping
    carries [attention_layer_size = 1000] under [attention] and
    [num_units = 1000] under the [kwargs] of [rnn_cell]; but a decoder
    cannot be built from it: given the [rnn_cell] mapping alone, or the
    whole [decoder] mapping, as hyperparameters, the constructor raises at
    its first line, the world is unchanged and no cell is built. *)
Theorem configured_decoder_construction (name : string) (w : World) :
  config_model.num_units = 1000
  /\ config_model.embedding_dim = 500
  /\ getpath (HDict config_model.decoder) ["attention"; "attention_layer_size"]
     = Some (HInt 1000)
  /\ exists rc : hval,
       config_model.decoder !! "rnn_cell" = Some rc
       /\ getpath rc ["kwargs"; "num_units"] = Some (HInt 1000)
       /\ (exists e : exn,
             __init__ None (Some {[ "rnn_cell" := rc ]}) name w = (Raise e, w))
       /\ (exists e : exn,
             __init__ None (Some config_model.decoder) name w = (Raise e, w))
       /\ factory_args
            (new_calls w (snd (__init__ None (Some config_model.decoder) name w)))
          = [].
Proof.
  split; [done|]. split; [done|]. split; [by vm_compute|].
  eexists. split; [by vm_compute|]. split; [by vm_compute|].
  unfold __init__, bind, ModuleBase__init__, raise; cbn [fst snd].
  split; [by eexists|]. split; [by eexists|].
  rewrite (new_calls_eq w w []) by (by rewrite app_nil_r). done.
Qed.

End ExampleConfiguration.

(** * The decoder in the reference environments *)

Section Examples.
Local Existing Instance Reference.types.
Local Existing Instance Reference.plain.
Local Open Scope list_scope.

Lemma build_cond_rejects_values_witness :
  ((exists msg : string,
      fst (_build (E := Reference.strict_cond) 4 7
             (Reference.frame Reference.inference)) = Raise (TypeError msg))
   /\ driver_bounds (new_calls Reference.inference
        (world (snd (_build (E := Reference.strict_cond) 4 7
                       (Reference.frame Reference.inference))))) = [])
  /\ ((exists msg : string,
         fst (_build (E := Reference.strict_cond) 4 7
                (Reference.frame Reference.training)) = Raise (TypeError msg))
      /\ driver_bounds (new_calls Reference.training
           (world (snd (_build (E := Reference.strict_cond) 4 7
                          (Reference.frame Reference.training))))) = []).
Proof.
  split.
  - apply (build_cond_rejects_values (E := Reference.strict_cond) 4 7
             (Reference.frame Reference.inference) (HInt 64)).
    + intros pred a b g. eexists. reflexivity.
    + vm_compute. reflexivity.
  - apply (build_cond_rejects_values (E := Reference.strict_cond) 4 7
             (Reference.frame Reference.training) (HInt 64)).
    + intros pred a b g. eexists. reflexivity.
    + vm_compute. reflexivity.
Defined.

Lemma default_hparams_keys_witness :
  exists m : gmap string hval,
    fst (default_hparams Reference.inference) = Ok (HDict m)
    /\ dom m = ({[ "rnn_cell"; "max_decoding_length" ]} : gset string)
    /\ m !! "max_decoding_length" = Some (HInt 64)
    /\ m !! "rnn_cell" = Some (HDict ∅).
Proof.
  exact (default_hparams_keys (E := Reference.plain) Reference.inference
           (HDict ∅) false eq_refl).
Defined.

Lemma default_hparams_pure_witness :
  exists d : hval,
    (forall w : World, default_hparams w = (Ok d, w))
    /\ (forall w1 w2 : World, fst (default_hparams w1) = fst (default_hparams w2))
    /\ (forall w : World,
          bind default_hparams (fun _ => default_hparams) w = default_hparams w).
Proof.
  apply (default_hparams_pure (E := Reference.plain)).
  exists (HDict ∅). intros g. reflexivity.
Defined.



Lemma batch_size_before_build_witness :
  batch_size (@Build_Frame Reference.types Reference.fresh Reference.inference)
  = (Raise (AttributeError "batch_size"),
     @Build_Frame Reference.types Reference.fresh Reference.inference).
Proof.
  apply (batch_size_before_build (E := Reference.plain) Reference.fresh
           Reference.inference).
  reflexivity.
Defined.

(** C8 as stated fails: in inference mode a run of [_build] with helper 4
    and initial state 7 on a fresh decoder returns the driver's triple, and
    afterwards the decoder still holds that helper and that initial state. *)
Lemma build_retains_arguments_counterexample :
  fst (_build 4 7 (Reference.frame Reference.inference)) = Ok (100, 7, 4)
  /\ _helper (self (snd (_build 4 7 (Reference.frame Reference.inference))))
     = Some 4
  /\ _initial_state (self (snd (_build 4 7 (Reference.frame Reference.inference))))
     = Some 7
  /\ _helper (self (snd (_build 4 7 (Reference.frame Reference.inference))))
     <> None.
Proof. vm_compute. repeat split; discriminate. Qed.

End Examples.

(** * Further properties of the decoder *)

Section Outcomes.
Context `{E : Externals}.
Local Open Scope list_scope.
Local Open Scope py_scope.

(** ** Reading [batch_size] after a run *)

(** X1: once [_build] has run with a helper, whether the run returned or
    raised, reading [batch_size] returns the batch size of that helper and
    leaves the frame as it is. *)
Theorem batch_size_after_build (helper : Helper) (initial_state : Tensor)
    (fr : Frame) :
  batch_size (snd (_build helper initial_state fr))
  = (Ok (helper_batch_size helper), snd (_build helper initial_state fr)).
Proof.
  destruct (_build_stores helper initial_state fr) as [Hh _].
  unfold batch_size, bind, get_self. by rewrite Hh.
Qed.

(** ** Errors *)

(** X2: on a decoder whose hyperparameters do not bind
    [max_decoding_length], [_build] raises [AttributeError] for that
    attribute; neither the conditional nor the driver is called and the world
    is untouched, but the helper and the initial state are already stored. *)
Theorem build_without_bound (helper : Helper) (initial_state : Tensor) (fr : Frame) :
  getitem (_hparams (self fr)) "max_decoding_length" = None ->
  _build helper initial_state fr
  = (Raise (AttributeError "max_decoding_length"),
     {| self := with_arguments (self fr) helper initial_state; world := world fr |}).
Proof.
  intros Hnone. rewrite _build_run. cbv zeta. by rewrite Hnone.
Qed.

(** X3: when the conditional raises during a run of [_build], the run raises
    that same error, the driver is not called, nothing is registered, and the
    instance is left holding the helper and the initial state. *)
Theorem build_cond_error (helper : Helper) (initial_state : Tensor) (fr : Frame)
    (pred : bool) (a b : hval) (e : exn) :
  EvCond pred a b (Raise e)
    ∈ new_calls (world fr) (world (snd (_build helper initial_state fr))) ->
  fst (_build helper initial_state fr) = Raise e
  /\ driver_bounds (new_calls (world fr) (world (snd (_build helper initial_state fr))))
     = []
  /\ self (snd (_build helper initial_state fr))
     = with_arguments (self fr) helper initial_state.
Proof.
  intros Hin.
  destruct (_build_outcomes helper initial_state fr) as [_ Hcase]; cbv zeta in Hcase.
  destruct Hcase as [(_ & Hevs & _) | [(v & e' & _ & Hevs & Hr & Hself)
    | [(v & m & e' & _ & Hevs & _) | [(v & m & out & g2 & e' & _ & Hevs & _)
    | (v & m & out & g2 & variable & _ & Hevs & _)]]]];
    rewrite Hevs in Hin |- *.
  - by apply not_elem_of_nil in Hin.
  - apply list_elem_of_singleton in Hin. injection Hin as -> -> -> ->. done.
  - apply elem_of_cons in Hin as [Hin|Hin]; [discriminate|].
    apply list_elem_of_singleton in Hin. discriminate.
  - apply elem_of_cons in Hin as [Hin|Hin]; [discriminate|].
    apply list_elem_of_singleton in Hin. discriminate.
  - apply elem_of_cons in Hin as [Hin|Hin]; [discriminate|].
    apply list_elem_of_singleton in Hin. discriminate.
Qed.

(** X4: when the driver raises during a run of [_build], the run raises that
    same error, nothing is registered with the tracker, and the instance is
    left holding the helper and the initial state. *)
Theorem build_driver_error (helper : Helper) (initial_state : Tensor) (fr : Frame)
    (d : RNNDecoderBase) (m : hval) (e : exn) :
  EvDynamicDecode d m (Raise e)
    ∈ new_calls (world fr) (world (snd (_build helper initial_state fr))) ->
  fst (_build helper initial_state fr) = Raise e
  /\ self (snd (_build helper initial_state fr))
     = with_arguments (self fr) helper initial_state.
Proof.
  intros Hin.
  destruct (_build_outcomes helper initial_state fr) as [_ Hcase]; cbv zeta in Hcase.
  destruct Hcase as [(_ & Hevs & _) | [(v & e' & _ & Hevs & _)
    | [(v & m' & e' & _ & Hevs & Hr & Hself) | [(v & m' & out & g2 & e' & _ & Hevs & _)
    | (v & m' & out & g2 & variable & _ & Hevs & _)]]]];
    rewrite Hevs in Hin.
  - by apply not_elem_of_nil in Hin.
  - apply list_elem_of_singleton in Hin. discriminate.
  - apply elem_of_cons in Hin as [Hin|Hin]; [discriminate|].
    apply list_elem_of_singleton in Hin. injection Hin as _ _ ->. done.
  - apply elem_of_cons in Hin as [Hin|Hin]; [discriminate|].
    apply list_elem_of_singleton in Hin. discriminate.
  - apply elem_of_cons in Hin as [Hin|Hin]; [discriminate|].
    apply list_elem_of_singleton in Hin. discriminate.
Qed.

(** ** What a run leaves alone *)

(** X5: a run of [_build], however it ends, keeps the cell, the
    hyperparameters and the name of the instance, and only adds to the log
    of calls.  What it adds is nothing, or the one call of the conditional
    on the mode flag, [None] and the configured bound, which raised, or that
    call, which returned, followed by the one call of the driver on the
    instance holding the two arguments with the bound the conditional
    returned: never the driver before the conditional, never more than these
    two calls, and never the cell factory. *)
Theorem build_preserves_configuration (helper : Helper) (initial_state : Tensor)
    (fr : Frame) :
  let fr' := snd (_build helper initial_state fr) in
  let evs := new_calls (world fr) (world fr') in
  let pred := is_train (globals (world fr)) in
  let d0 := with_arguments (self fr) helper initial_state in
  _cell (self fr') = _cell (self fr)
  /\ _hparams (self fr') = _hparams (self fr)
  /\ mb_name (base (self fr')) = mb_name (base (self fr))
  /\ calls (world fr') = calls (world fr) ++ evs
  /\ (length evs <= 2)%nat
  /\ factory_args evs = []
  /\ (evs = []
      \/ (exists v e,
            getitem (_hparams (self fr)) "max_decoding_length" = Some v
            /\ evs = [EvCond pred HNone v (Raise e)])
      \/ (exists v m rd,
            getitem (_hparams (self fr)) "max_decoding_length" = Some v
            /\ evs = [EvCond pred HNone v (Ok m); EvDynamicDecode d0 m rd])).
Proof.
  cbv zeta.
  destruct (_build_outcomes helper initial_state fr) as [Hlog Hcase];
    cbv zeta in Hlog, Hcase.
  destruct Hcase as [(_ & Hevs & _ & Hfr) | [(v & e & Hv & Hevs & _ & Hself)
    | [(v & m & e & Hv & Hevs & _ & Hself)
    | [(v & m & out & g2 & e & Hv & Hevs & _ & _ & Hself)
    | (v & m & out & g2 & variable & Hv & Hevs & _ & _ & Hself)]]]].
  1: assert (Hself := f_equal self Hfr); cbn [self] in Hself.
  all: rewrite Hself; rewrite Hevs in Hlog |- *; cbn.
  all: split; [done|]; split; [done|]; split; [done|]; split; [done|].
  all: split; [lia|]; split; [done|].
  - by left.
  - right; left. by exists v, e.
  - right; right. by exists v, m, (Raise e).
  - right; right. by exists v, m, (Ok out).
  - right; right. by exists v, m, (Ok out).
Qed.

(** ** A run in which every call returns *)

(** X8: when the bound is configured, the conditional returns a bound, the
    driver called with it returns a triple and the call on the cell returns
    its variables, a run of [_build] returns the driver's triple unchanged;
    it leaves the instance holding the two arguments, with the variables of
    the module's scope, read after the driver returned, and then those of
    the cell added to the tracker; and it logs the call of the conditional
    followed by the call of the driver. *)
Theorem build_when_all_return (helper : Helper) (initial_state : Tensor)
    (fr : Frame) (v m : hval) (out : Tensor * Tensor * Tensor)
    (variable : list TFVariable) (g1 g2 g3 : Globals) :
  let d0 := with_arguments (self fr) helper initial_state in
  let pred := is_train (globals (world fr)) in
  getitem (_hparams (self fr)) "max_decoding_length" = Some v ->
  tf_cond pred HNone v (globals (world fr)) = (Ok m, g1) ->
  dynamic_decode d0 m g1 = (Ok out, g2) ->
  cell_trainable_variables (_cell (self fr)) g2 = (Ok variable, g3) ->
  _build helper initial_state fr
  = (Ok out,
     {| self := with_registered
                  (with_registered d0
                     (scope_trainable_variables (mb_name (base (self fr))) g2))
                  variable;
        world := {| globals := g3;
                    calls := calls (world fr)
                             ++ [EvCond pred HNone v (Ok m);
                                 EvDynamicDecode d0 m (Ok out)] |} |}).
Proof.
  cbv zeta. intros Hv Hcond Hdrive Hcell.
  rewrite _build_run. cbv zeta. rewrite Hv, Hcond, Hdrive.
  cbn [_cell with_arguments base mb_name]. rewrite Hcell.
  by rewrite <- app_assoc.
Qed.

End Outcomes.

Section Composition.
Context `{E : Externals}.
Local Open Scope list_scope.
Local Open Scope py_scope.

(** X7: against the defaults of the decoder base class, the [decoder] mapping
    of the example configuration shares the key [rnn_cell] only: it carries
    one key the class has no default for, [attention], and leaves
    [max_decoding_length] to the default. *)
Theorem decoder_configuration_keys (w : World) (m : gmap string hval) :
  fst (default_hparams w) = Ok (HDict m) ->
  dom config_model.decoder ∩ dom m = ({[ "rnn_cell" ]} : gset string)
  /\ dom config_model.decoder ∖ dom m = ({[ "attention" ]} : gset string)
  /\ dom m ∖ dom config_model.decoder = ({[ "max_decoding_length" ]} : gset string).
Proof.
  rewrite default_hparams_run.
  destruct (default_rnn_cell_hparams (globals w)) as [[rc|e] g]; [|done].
  unfold defaults_with, config_model.decoder. intros [= <-].
  rewrite !dom_insert_L, !dom_empty_L.
  repeat split; set_solver.
Qed.

End Composition.

(** * Further runs in the reference environments *)

Section FurtherExamples.
Local Existing Instance Reference.types.
Local Open Scope list_scope.

Lemma build_without_bound_witness :
  _build (E := Reference.plain) 4 7
    (@Build_Frame Reference.types Reference.bare Reference.inference)
  = (Raise (AttributeError "max_decoding_length"),
     @Build_Frame Reference.types (with_arguments Reference.bare 4 7)
       Reference.inference).
Proof.
  apply (build_without_bound (E := Reference.plain) 4 7
           (@Build_Frame Reference.types Reference.bare Reference.inference)).
  vm_compute. reflexivity.
Defined.

Lemma build_cond_error_witness :
  fst (_build (E := Reference.faulty) 4 7 (Reference.frame Reference.training))
  = Raise (ExternalError "cond")
  /\ driver_bounds (new_calls Reference.training
       (world (snd (_build (E := Reference.faulty) 4 7
                      (Reference.frame Reference.training)))))
     = []
  /\ self (snd (_build (E := Reference.faulty) 4 7
                  (Reference.frame Reference.training)))
     = with_arguments Reference.fresh 4 7.
Proof.
  apply (build_cond_error (E := Reference.faulty) 4 7
           (Reference.frame Reference.training) true HNone (HInt 64)).
  vm_compute. apply list_elem_of_here.
Defined.

Lemma build_driver_error_witness :
  fst (_build (E := Reference.faulty) 4 7 (Reference.frame Reference.inference))
  = Raise (ExternalError "driver")
  /\ self (snd (_build (E := Reference.faulty) 4 7
                  (Reference.frame Reference.inference)))
     = with_arguments Reference.fresh 4 7.
Proof.
  apply (build_driver_error (E := Reference.faulty) 4 7
           (Reference.frame Reference.inference)
           (with_arguments Reference.fresh 4 7) (HInt 64)).
  vm_compute. apply list_elem_of_further, list_elem_of_here.
Defined.

Lemma decoder_configuration_keys_witness :
  dom config_model.decoder ∩ dom (<["rnn_cell" := HDict ∅]>
        (<["max_decoding_length" := HInt 64]> (∅ : gmap string hval)))
    = ({[ "rnn_cell" ]} : gset string)
  /\ dom config_model.decoder ∖ dom (<["rnn_cell" := HDict ∅]>
        (<["max_decoding_length" := HInt 64]> (∅ : gmap string hval)))
    = ({[ "attention" ]} : gset string)
  /\ dom (<["rnn_cell" := HDict ∅]>
        (<["max_decoding_length" := HInt 64]> (∅ : gmap string hval)))
      ∖ dom config_model.decoder
    = ({[ "max_decoding_length" ]} : gset string).
Proof.
  apply (decoder_configuration_keys (E := Reference.plain) Reference.inference).
  reflexivity.
Defined.

Lemma build_when_all_return_witness :
  _build (E := Reference.plain) 4 7 (Reference.frame Reference.inference)
  = (Ok (100, 7, 4),
     @Build_Frame Reference.types
       (with_registered
          (with_registered (with_arguments Reference.fresh 4 7)
             ["rnn_decoder/output_layer"])
          ["cell/kernel"; "cell/bias"])
       (@Build_World Reference.types false
          [EvCond false HNone (HInt 64) (Ok (HInt 64));
           EvDynamicDecode (with_arguments Reference.fresh 4 7) (HInt 64)
             (Ok (100, 7, 4))])).
Proof.
  apply (build_when_all_return (E := Reference.plain) 4 7
           (Reference.frame Reference.inference) (HInt 64) (HInt 64) (100, 7, 4)
           ["cell/kernel"; "cell/bias"] false false false).
  - vm_compute. reflexivity.
  - reflexivity.
  - reflexivity.
  - reflexivity.
Defined.

End FurtherExamples.
